(** * FoodFacts: health-score estimator and barcode checksum validator

    A shallow embedding of the pure logic of the FoodFacts application:

    - [getHealthScore]  (app/product/[barcode]/page.tsx, in README.md)
    - [getGradeColor]   (app/page.tsx and the product detail page)
    - [getHealthScoreClass], [getHealthScoreText]  (static/js/main.js)
    - [validateBarcode], [validateEAN13], [validateUPC]  (static/js/scanner.js)

    followed by the properties the specification states about them; then
    their neighbours and callers

    - [getScoreColor] and the score of the product page  (README.md)
    - the input handler of the manual barcode field, the doughnut colour and
      [updateStarDisplay]  (static/js/scanner.js)
    - [updateProgressBars]  (static/js/dashboard.js)

    with properties read off the code. *)

From Stdlib Require Import ZArith QArith Bool List String Ascii Lia.
From Stdlib Require Import Lqa.
Import ListNotations.

(** ** JavaScript numbers, as far as the program observes them

    The estimator only ever compares a nutrient value with a constant, and
    comparison of IEEE doubles is exact: a finite double is a rational and
    compares as that rational.  So a number is a rational, one of the two
    infinities, or NaN.  Nothing in the program adds or multiplies nutrient
    values, so no rounding is involved. *)
Module JS.

Inductive number : Type :=
| Finite (q : Q)
| PosInf
| NegInf
| NaN.

Definition Qlt_bool (a b : Q) : bool := negb (Qle_bool b a).

(** [x < y]; false as soon as one side is NaN. *)
Definition lt (x y : number) : bool :=
  match x, y with
  | NaN, _ | _, NaN => false
  | Finite a, Finite b => Qlt_bool a b
  | NegInf, NegInf => false
  | NegInf, _ => true
  | PosInf, _ => false
  | Finite _, PosInf => true
  | Finite _, NegInf => false
  end.

(** [x <= y]; false as soon as one side is NaN. *)
Definition le (x y : number) : bool :=
  match x, y with
  | NaN, _ | _, NaN => false
  | Finite a, Finite b => Qle_bool a b
  | NegInf, _ => true
  | PosInf, PosInf => true
  | PosInf, _ => false
  | Finite _, PosInf => true
  | Finite _, NegInf => false
  end.

(** [x > y] and [x >= y]. *)
Definition gt (x y : number) : bool := lt y x.
Definition ge (x y : number) : bool := le y x.

(** Reading a property of an object gives [undefined] when the object has
    no such property: [None].  A relational operator converts its operands
    with ToNumber, and ToNumber(undefined) is NaN. *)
Definition ToNumber (v : option number) : number :=
  match v with
  | Some x => x
  | None => NaN
  end.

(** Two numbers denote the same value. *)
Definition same (x y : number) : Prop :=
  match x, y with
  | Finite a, Finite b => a == b
  | PosInf, PosInf | NegInf, NegInf | NaN, NaN => True
  | _, _ => False
  end.

Definition same_opt (x y : option number) : Prop :=
  match x, y with
  | Some a, Some b => same a b
  | None, None => True
  | _, _ => False
  end.

End JS.

Coercion JS.Finite : Q >-> JS.number.

(** ** Nutrient facts

    The [nutriments] object of a product, per 100 g.  Every property is
    optional: [None] is a property the data source did not send. *)
Record Nutriments : Type := mkNutriments {
  energy_kcal_100g   : option JS.number;
  fat_100g           : option JS.number;
  saturated_fat_100g : option JS.number;
  carbohydrates_100g : option JS.number;
  sugars_100g        : option JS.number;
  fiber_100g         : option JS.number;
  proteins_100g      : option JS.number;
  salt_100g          : option JS.number;
  sodium_100g        : option JS.number
}.

(** The object [{}]. *)
Definition empty_nutriments : Nutriments :=
  mkNutriments None None None None None None None None None.

Inductive NutrientField : Type :=
| Energy | Fat | SaturatedFat | Carbohydrates | Sugars
| Fiber | Proteins | Salt | Sodium.

Definition get (f : NutrientField) (n : Nutriments) : option JS.number :=
  match f with
  | Energy => energy_kcal_100g n
  | Fat => fat_100g n
  | SaturatedFat => saturated_fat_100g n
  | Carbohydrates => carbohydrates_100g n
  | Sugars => sugars_100g n
  | Fiber => fiber_100g n
  | Proteins => proteins_100g n
  | Salt => salt_100g n
  | Sodium => sodium_100g n
  end.

(** The same object with one property replaced (or removed, with [None]). *)
Definition set (f : NutrientField) (v : option JS.number) (n : Nutriments)
  : Nutriments :=
  match n with
  | mkNutriments en fa sf ca su fi pr sa so =>
    match f with
    | Energy => mkNutriments v fa sf ca su fi pr sa so
    | Fat => mkNutriments en v sf ca su fi pr sa so
    | SaturatedFat => mkNutriments en fa v ca su fi pr sa so
    | Carbohydrates => mkNutriments en fa sf v su fi pr sa so
    | Sugars => mkNutriments en fa sf ca v fi pr sa so
    | Fiber => mkNutriments en fa sf ca su v pr sa so
    | Proteins => mkNutriments en fa sf ca su fi v sa so
    | Salt => mkNutriments en fa sf ca su fi pr v so
    | Sodium => mkNutriments en fa sf ca su fi pr sa v
    end
  end.

(** ** The estimator, from the source *)

Open Scope Z_scope.

(** [nutriments.p > t] for a property [p] that may be missing. *)
Definition above (p : option JS.number) (t : Q) : bool :=
  JS.gt (JS.ToNumber p) (JS.Finite t).

(** [getHealthScore(nutriments)].  The running score stays an integer
    between 30 and 115, so [Math.min] and [Math.max] are those of [Z]. *)
Definition getHealthScore (nutriments : Nutriments) : Z :=
  let score := 100 in
  (* Deduct points for high values *)
  let score := if above (fat_100g nutriments) 20 then score - 15 else score in
  let score := if above (saturated_fat_100g nutriments) 5 then score - 10 else score in
  let score := if above (sugars_100g nutriments) 15 then score - 20 else score in
  let score := if above (salt_100g nutriments) 1.5 then score - 15 else score in
  let score := if above (sodium_100g nutriments) 600 then score - 10 else score in
  (* Add points for good values *)
  let score := if above (fiber_100g nutriments) 3 then score + 10 else score in
  let score := if above (proteins_100g nutriments) 10 then score + 5 else score in
  Z.max 0 (Z.min 100 score).

(** ** Display helpers, from the source *)

Open Scope string_scope.

(** [getGradeColor(grade)]: a [switch] on the grade, which compares with
    [===], that is string equality. *)
Definition getGradeColor (grade : string) : string :=
  if String.eqb grade "A" then "bg-green-500"
  else if String.eqb grade "B" then "bg-lime-500"
  else if String.eqb grade "C" then "bg-yellow-500"
  else if String.eqb grade "D" then "bg-orange-500"
  else if String.eqb grade "E" then "bg-red-500"
  else "bg-gray-500".

(** [getHealthScoreClass(score)]. *)
Definition getHealthScoreClass (score : JS.number) : string :=
  if JS.ge score 80%Q then "health-score-excellent"
  else if JS.ge score 60%Q then "health-score-good"
  else if JS.ge score 40%Q then "health-score-fair"
  else "health-score-poor".

(** [getHealthScoreText(score)]. *)
Definition getHealthScoreText (score : JS.number) : string :=
  if JS.ge score 80%Q then "Excellent"
  else if JS.ge score 60%Q then "Good"
  else if JS.ge score 40%Q then "Fair"
  else "Poor".

(** The band of a score: the two helpers read together. *)
Record Band : Type := mkBand { label : string; colorClass : string }.

Definition scoreBand (score : JS.number) : Band :=
  {| label := getHealthScoreText score;
     colorClass := getHealthScoreClass score |}.

(** A score computed by [getHealthScore], as the number it is. *)
Definition of_int (z : Z) : JS.number := JS.Finite (inject_Z z).

(** ** The checksum validator, from the source

    A string is a sequence of characters; [\d] is the class [0-9]. *)

Definition is_digit (c : ascii) : bool :=
  ((48 <=? nat_of_ascii c) && (nat_of_ascii c <=? 57))%nat.

(** [barcode.replace(/\D/g, "")]: every character that is not a digit is
    dropped, the others stay in order. *)
Fixpoint strip_non_digits (s : string) : string :=
  match s with
  | EmptyString => EmptyString
  | String c s' =>
    if is_digit c then String c (strip_non_digits s') else strip_non_digits s'
  end.

(** [/^\d+$/.test(s)]: one digit or more, and nothing else. *)
Fixpoint all_digits (s : string) : bool :=
  match s with
  | EmptyString => true
  | String c s' => is_digit c && all_digits s'
  end.

Definition test_digits (s : string) : bool :=
  match s with
  | EmptyString => false
  | String _ _ => all_digits s
  end.

(** The numbers of the checksum are integers or NaN: [Number.parseInt] gives
    NaN where there is no digit, and NaN spreads through [+], [*], [-] and
    [%].  [None] is NaN.  The sums stay far below 2^53. *)
Module IntOrNaN.

Definition t : Type := option Z.

Definition lift2 (op : Z -> Z -> Z) (x y : t) : t :=
  match x, y with
  | Some a, Some b => Some (op a b)
  | _, _ => None
  end.

Definition add : t -> t -> t := lift2 Z.add.
Definition sub : t -> t -> t := lift2 Z.sub.
Definition mul : t -> t -> t := lift2 Z.mul.

(** [x % y]: the remainder has the sign of [x]; a zero divisor gives NaN. *)
Definition rem (x y : t) : t :=
  match x, y with
  | Some a, Some b => if (b =? 0)%Z then None else Some (Z.rem a b)
  | _, _ => None
  end.

(** [x === y]: NaN equals nothing, not even itself. *)
Definition strict_eq (x y : t) : bool :=
  match x, y with
  | Some a, Some b => (a =? b)%Z
  | _, _ => false
  end.

End IntOrNaN.

(** [Number.parseInt(barcode[i])]: [barcode[i]] is a string of one character,
    or [undefined] past the end; the result is the digit, or NaN. *)
Definition parseInt_at (barcode : string) (i : nat) : IntOrNaN.t :=
  match String.get i barcode with
  | Some c =>
    if is_digit c then Some (Z.of_nat (nat_of_ascii c) - 48)%Z else None
  | None => None
  end.

(** The body of the loop of [validateEAN13], at index [i]. *)
Definition ean13_step (barcode : string) (sum : IntOrNaN.t) (i : nat)
  : IntOrNaN.t :=
  let digit := parseInt_at barcode i in
  IntOrNaN.add sum
    (if (i mod 2 =? 0)%nat then digit else IntOrNaN.mul digit (Some 3%Z)).

(** [validateEAN13(barcode)]. *)
Definition validateEAN13 (barcode : string) : bool :=
  if negb (String.length barcode =? 13)%nat then false
  else
    let sum := fold_left (ean13_step barcode) (seq 0 12) (Some 0%Z) in
    let checkDigit :=
      IntOrNaN.rem
        (IntOrNaN.sub (Some 10%Z) (IntOrNaN.rem sum (Some 10%Z)))
        (Some 10%Z) in
    IntOrNaN.strict_eq checkDigit (parseInt_at barcode 12).

(** The body of the loop of [validateUPC], at index [i]. *)
Definition upc_step (barcode : string) (sum : IntOrNaN.t) (i : nat)
  : IntOrNaN.t :=
  let digit := parseInt_at barcode i in
  IntOrNaN.add sum
    (if (i mod 2 =? 0)%nat then IntOrNaN.mul digit (Some 3%Z) else digit).

(** [validateUPC(barcode)]. *)
Definition validateUPC (barcode : string) : bool :=
  if negb (String.length barcode =? 12)%nat then false
  else
    let sum := fold_left (upc_step barcode) (seq 0 11) (Some 0%Z) in
    let checkDigit :=
      IntOrNaN.rem
        (IntOrNaN.sub (Some 10%Z) (IntOrNaN.rem sum (Some 10%Z)))
        (Some 10%Z) in
    IntOrNaN.strict_eq checkDigit (parseInt_at barcode 11).

(** [validateBarcode(barcode)]. *)
Definition validateBarcode (barcode : string) : bool :=
  (* Remove any non-digit characters *)
  let cleaned := strip_non_digits barcode in
  (* Check length *)
  if ((String.length cleaned <? 8) || (14 <? String.length cleaned))%nat
  then false
  (* Basic checksum validation for common formats *)
  else if (String.length cleaned =? 13)%nat then validateEAN13 cleaned
  else if (String.length cleaned =? 12)%nat then validateUPC cleaned
  (* For other lengths, just check if it's all digits *)
  else test_digits cleaned.

(** ** The formulas of the specification

    These follow the words of the specification, not the code; the theorems
    below compare them with the functions above. *)

Definition clamp (lo hi x : Z) : Z :=
  if (x <? lo)%Z then lo else if (hi <? x)%Z then hi else x.

(** "present and > t". *)
Definition present_and_above (v : option JS.number) (t : Q) : bool :=
  match v with
  | Some x => JS.gt x (JS.Finite t)
  | None => false
  end.

(** Start at 100, subtract the penalties, add the bonuses, clamp. *)
Definition score_spec (facts : Nutriments) : Z :=
  clamp 0 100
    (100
     - (if present_and_above (fat_100g facts) 20 then 15 else 0)
     - (if present_and_above (saturated_fat_100g facts) 5 then 10 else 0)
     - (if present_and_above (sugars_100g facts) 15 then 20 else 0)
     - (if present_and_above (salt_100g facts) 1.5 then 15 else 0)
     - (if present_and_above (sodium_100g facts) 600 then 10 else 0)
     + (if present_and_above (fiber_100g facts) 3 then 10 else 0)
     + (if present_and_above (proteins_100g facts) 10 then 5 else 0))%Z.

(** The rule of a field: its threshold and the points it moves the score
    by; energy and carbohydrates have no rule. *)
Definition rule (f : NutrientField) : option (Q * Z) :=
  match f with
  | Fat => Some (20%Q, -15)
  | SaturatedFat => Some (5%Q, -10)
  | Sugars => Some (15%Q, -20)
  | Salt => Some (1.5%Q, -15)
  | Sodium => Some (600%Q, -10)
  | Fiber => Some (3%Q, 10)
  | Proteins => Some (10%Q, 5)
  | Energy | Carbohydrates => None
  end%Z.

Definition is_penalty (f : NutrientField) : bool :=
  match rule f with Some (_, p) => (p <? 0)%Z | None => false end.

Definition is_bonus (f : NutrientField) : bool :=
  match rule f with Some (_, p) => (0 <? p)%Z | None => false end.

(** What one field adds to the score before the clamp. *)
Definition contribution (f : NutrientField) (facts : Nutriments) : Z :=
  match rule f with
  | Some (t, p) => if present_and_above (get f facts) t then p else 0%Z
  | None => 0%Z
  end.

Definition all_fields : list NutrientField :=
  [Energy; Fat; SaturatedFat; Carbohydrates; Sugars;
   Fiber; Proteins; Salt; Sodium].

Definition field_eqb (f g : NutrientField) : bool :=
  match f, g with
  | Energy, Energy | Fat, Fat | SaturatedFat, SaturatedFat
  | Carbohydrates, Carbohydrates | Sugars, Sugars | Fiber, Fiber
  | Proteins, Proteins | Salt, Salt | Sodium, Sodium => true
  | _, _ => false
  end.

Definition others (f : NutrientField) : list NutrientField :=
  filter (fun g => negb (field_eqb g f)) all_fields.

Definition total (fs : list NutrientField) (facts : Nutriments) : Z :=
  fold_right (fun f acc => (contribution f facts + acc)%Z) 0%Z fs.

(** Normalization: strip every character that is not a decimal digit. *)
Definition normalize (s : string) : string := strip_non_digits s.

Definition digit_value (c : ascii) : Z := (Z.of_nat (nat_of_ascii c) - 48)%Z.

(** The digits of a string of digits, by index. *)
Fixpoint digits (s : string) : list Z :=
  match s with
  | EmptyString => []
  | String c s' => digit_value c :: digits s'
  end.

Definition digit_at (i : nat) (s : string) : Z := nth i (digits s) 0%Z.

(** The sum of the first [n] digits, the digit at index [i] weighted by
    [w i]. *)
Fixpoint weighted_sum (w : nat -> Z) (n : nat) (s : string) : Z :=
  match n with
  | O => 0%Z
  | S k => (weighted_sum w k s + w k * digit_at k s)%Z
  end.

Definition ean13_weight (i : nat) : Z := if Nat.even i then 1%Z else 3%Z.
Definition upca_weight (i : nat) : Z := if Nat.even i then 3%Z else 1%Z.

(** check digit = (10 - (sum mod 10)) mod 10. *)
Definition check_digit (sum : Z) : Z := ((10 - sum mod 10) mod 10)%Z.

(** The facts of scenario 4. *)
Definition scenario4 : Nutriments :=
  {| energy_kcal_100g := None;
     fat_100g := Some (JS.Finite 25);
     saturated_fat_100g := None;
     carbohydrates_100g := None;
     sugars_100g := Some (JS.Finite 20);
     fiber_100g := Some (JS.Finite 5);
     proteins_100g := None;
     salt_100g := None;
     sodium_100g := None |}.

(** ** More of the source: callers and neighbours of the functions above *)

(** [getScoreColor(score)], next to [getHealthScore] in the product page. *)
Definition getScoreColor (score : JS.number) : string :=
  if JS.ge score 80%Q then "text-green-600"
  else if JS.ge score 60%Q then "text-yellow-600"
  else "text-red-600".

(** ProductPage: [getHealthScore(product.nutriments || {})]; a product
    without a [nutriments] object is scored as [{}]. *)
Definition productHealthScore (nutriments : option Nutriments) : Z :=
  getHealthScore
    (match nutriments with
     | Some n => n
     | None => empty_nutriments
     end).

(** The [input] handler of the manual barcode field in
    [initializeManualEntry]: the field keeps its digits only, and
    [classList.toggle(name, force)] leaves the class present exactly when
    [force] is true, whatever was there before. *)
Record EntryFeedback : Type := mkEntryFeedback {
  entry_value : string;
  has_is_valid : bool;
  has_is_invalid : bool
}.

Definition barcodeInput_oninput (typed : string) : EntryFeedback :=
  let value := strip_non_digits typed in (* Remove non-digits *)
  (* Validate length *)
  let isValid :=
    ((8 <=? String.length value) && (String.length value <=? 14))%nat in
  {| entry_value := value;
     has_is_valid := isValid && (0 <? String.length value)%nat;
     has_is_invalid := negb isValid && (0 <? String.length value)%nat |}.

(** [Math.min(x, y)]: NaN as soon as one argument is NaN. *)
Definition Math_min (x y : JS.number) : JS.number :=
  match x, y with
  | JS.NaN, _ | _, JS.NaN => JS.NaN
  | _, _ => if JS.le x y then x else y
  end.

(** One progress bar in [updateProgressBars] (dashboard.js): the percentage
    it is given, capped, and the colour class added to "progress-bar". *)
Record ProgressBar : Type := mkProgressBar {
  aria_valuenow : JS.number;
  bar_colour : string
}.

Definition updateProgressBar (value : JS.number) : ProgressBar :=
  let percentage := Math_min value (JS.Finite 100) in
  {| aria_valuenow := percentage;
     (* Update progress bar color based on percentage *)
     bar_colour :=
       if JS.ge percentage 100%Q then "bg-success"
       else if JS.ge percentage 75%Q then "bg-warning"
       else "bg-info" |}.

(** The colour of the health score doughnut, chosen in the product detail
    script from [healthScoreValue], the result of [Number.parseInt]. *)
Definition chartScoreColor (healthScoreValue : JS.number) : string :=
  let scoreColor := "#ccc" in (* Default grey *)
  if JS.ge healthScoreValue 0%Q then
    if JS.le healthScoreValue 0%Q then "#28a745" (* Green *)
    else if JS.le healthScoreValue 5%Q then "#66bb6a" (* Light Green *)
    else if JS.le healthScoreValue 10%Q then "#ffc107" (* Yellow *)
    else if JS.le healthScoreValue 15%Q then "#fd7e14" (* Orange *)
    else "#dc3545" (* Red *)
  else scoreColor.

(** The star rating of the review form (product detail script).  A star is
    an element with a [classList], an ordered set of class names:
    [add] appends a name that is not there, [remove] deletes it. *)
Definition classList : Type := list string.

Definition contains (l : classList) (c : string) : bool :=
  existsb (String.eqb c) l.

Definition classList_add (c : string) (l : classList) : classList :=
  if contains l c then l else (l ++ [c])%list.

Definition classList_remove (c : string) (l : classList) : classList :=
  filter (fun x => negb (String.eqb x c)) l.

(** The callback of [forEach((star, index) => ...)] in
    [updateStarDisplay(rating)]. *)
Definition updateStar (rating : JS.number) (index : nat) (star : classList)
  : classList :=
  if JS.lt (of_int (Z.of_nat index)) rating
  then classList_add "bi-star-fill" (classList_remove "bi-star" star)
  else classList_add "bi-star" (classList_remove "bi-star-fill" star).

Fixpoint forEach_from (index : nat) (f : nat -> classList -> classList)
    (stars : list classList) : list classList :=
  match stars with
  | [] => []
  | star :: rest => f index star :: forEach_from (S index) f rest
  end.

Definition updateStarDisplay (rating : JS.number) (stars : list classList)
  : list classList :=
  forEach_from 0 (updateStar rating) stars.

(** ** Helpers for stating properties of the checksums *)

(** The string with the character at index [i] replaced by [c]. *)
Fixpoint replace_at (i : nat) (c : ascii) (s : string) : string :=
  match s with
  | EmptyString => EmptyString
  | String a s' =>
    match i with
    | O => String c s'
    | S j => String a (replace_at j c s')
    end
  end.

(** The character of a digit. *)
Definition digit_char (d : Z) : ascii := ascii_of_nat (Z.to_nat (48 + d)).

(** NaN is absorbing in both loops: a step whose result is a number started
    from a number and read a digit. *)
Definition reads_digit (s : string)
    (step : IntOrNaN.t -> nat -> IntOrNaN.t) : Prop :=
  forall acc i, step acc i <> None -> acc <> None /\ parseInt_at s i <> None.

(** Case analysis on the seven tests of [getHealthScore]. *)
Ltac seven_tests :=
  repeat match goal with
         | |- context [above ?p ?t] => destruct (above p t)
         end.

(** * Properties of the estimator *)

Section Numbers.

Lemma Qlt_bool_iff (a b : Q) : JS.Qlt_bool a b = true <-> (a < b)%Q.
Proof.
  unfold JS.Qlt_bool. rewrite negb_true_iff.
  split; intro H.
  - apply Qnot_le_lt. intro Hle.
    apply Qle_bool_iff in Hle. congruence.
  - destruct (Qle_bool b a) eqn:E; [|reflexivity].
    apply Qle_bool_iff in E. exfalso. exact (Qlt_not_le _ _ H E).
Qed.

(** A value above a threshold stays above it when it grows. *)
Lemma gt_le_trans (x y t : JS.number) :
  JS.gt x t = true -> JS.le x y = true -> JS.gt y t = true.
Proof.
  unfold JS.gt.
  destruct x as [a| | |], y as [b| | |], t as [c| | |];
    simpl; try congruence.
  rewrite !Qlt_bool_iff, Qle_bool_iff.
  apply Qlt_le_trans.
Qed.

(** On numbers that are not NaN, [<] is the negation of [>=]. *)
Lemma ge_false_lt (x t : JS.number) :
  JS.le x x = true -> JS.le t t = true ->
  JS.ge x t = false -> JS.lt x t = true.
Proof.
  unfold JS.ge.
  destruct x as [a| | |], t as [c| | |]; simpl; try congruence.
  intros _ _ H. unfold JS.Qlt_bool. now rewrite H.
Qed.

Lemma lt_ge_false (x t : JS.number) :
  JS.lt x t = true -> JS.ge x t = false.
Proof.
  unfold JS.ge.
  destruct x as [a| | |], t as [c| | |]; simpl; try congruence.
  unfold JS.Qlt_bool. now rewrite negb_true_iff.
Qed.

Lemma ge_trans_const (x : JS.number) (a b : Q) :
  (b <= a)%Q -> JS.ge x (JS.Finite a) = true -> JS.ge x (JS.Finite b) = true.
Proof.
  unfold JS.ge. destruct x as [q| | |]; simpl; try congruence.
  rewrite !Qle_bool_iff. intros Hba Haq. exact (Qle_trans _ _ _ Hba Haq).
Qed.

(** [above] only looks at the value a number denotes. *)
Lemma gt_same (x y t : JS.number) :
  JS.same x y -> JS.gt x t = JS.gt y t.
Proof.
  unfold JS.gt.
  destruct x as [a| | |], y as [b| | |], t as [c| | |];
    simpl; try tauto.
  intro Hab. unfold JS.Qlt_bool, Qle_bool, Qeq in *. simpl.
  f_equal. destruct a as [an ad], b as [bn bd], c as [cn cd]; simpl in *.
  apply eq_true_iff_eq. rewrite !Z.leb_le. nia.
Qed.

End Numbers.

(** The code's test [nutriments.p > t] is the specification's
    "p present and > t": a missing property reads as NaN, which is above
    nothing. *)
Lemma above_present (p : option JS.number) (t : Q) :
  above p t = present_and_above p t.
Proof. destruct p as [x|]; reflexivity. Qed.

Lemma above_absent (t : Q) : above None t = false.
Proof. reflexivity. Qed.

Lemma above_same (p q : option JS.number) (t : Q) :
  JS.same_opt p q -> above p t = above q t.
Proof.
  destruct p as [x|], q as [y|]; simpl; try tauto.
  intro H. exact (gt_same x y (JS.Finite t) H).
Qed.

Lemma getHealthScore_spec (facts : Nutriments) :
  getHealthScore facts = score_spec facts.
Proof.
  unfold getHealthScore, score_spec.
  rewrite <- !above_present.
  seven_tests; reflexivity.
Qed.

Lemma getHealthScore_range (facts : Nutriments) :
  (0 <= getHealthScore facts <= 100)%Z.
Proof. unfold getHealthScore. cbv zeta. lia. Qed.

Lemma getHealthScore_total (facts : Nutriments) :
  getHealthScore facts = clamp 0 100 (100 + total all_fields facts).
Proof.
  unfold getHealthScore, total, all_fields, contribution; simpl.
  rewrite <- !above_present.
  seven_tests; reflexivity.
Qed.

Lemma contribution_absent (f : NutrientField) (facts : Nutriments) :
  get f facts = None -> contribution f facts = 0%Z.
Proof.
  intro H. unfold contribution. rewrite H.
  destruct (rule f) as [[t p]|]; reflexivity.
Qed.

Lemma total_others (f : NutrientField) (facts : Nutriments) :
  total all_fields facts = (contribution f facts + total (others f) facts)%Z.
Proof. destruct f; unfold total, others, all_fields; simpl; lia. Qed.

(** Scenario 4 with an energy and a carbohydrate value added, and the fat
    value written as another fraction of the same number. *)
Lemma scenario4_agrees :
  forall f, f <> Energy -> f <> Carbohydrates ->
    JS.same_opt
      (get f scenario4)
      (get f (set Energy (Some (JS.Finite 540))
               (set Carbohydrates (Some JS.PosInf)
                 (set Fat (Some (JS.Finite (50 # 2))) scenario4)))).
Proof. intros [] HE HC; simpl; try reflexivity; congruence. Qed.

(** The two extreme cases of the specification: every penalty and no bonus
    gives 30; both bonuses and no penalty gives 115, clamped to 100. *)
Example all_penalties :
  getHealthScore
    {| energy_kcal_100g := None;
       fat_100g := Some (JS.Finite 20.5);
       saturated_fat_100g := Some (JS.Finite 6);
       carbohydrates_100g := None;
       sugars_100g := Some (JS.Finite 16);
       fiber_100g := Some (JS.Finite 3);
       proteins_100g := Some (JS.Finite 10);
       salt_100g := Some (JS.Finite 1.6);
       sodium_100g := Some JS.PosInf |} = 30%Z.
Proof. reflexivity. Qed.

Example all_bonuses :
  getHealthScore
    {| energy_kcal_100g := None;
       fat_100g := Some (JS.Finite 20);
       saturated_fat_100g := Some (JS.Finite 5);
       carbohydrates_100g := None;
       sugars_100g := Some (JS.Finite 15);
       fiber_100g := Some (JS.Finite 3.1);
       proteins_100g := Some (JS.Finite 11);
       salt_100g := Some (JS.Finite 1.5);
       sodium_100g := Some JS.NaN |} = 100%Z.
Proof. reflexivity. Qed.

(** C1: for every nutrient record, [getHealthScore] is the clamp to [0,100]
    of 100 minus 15 (fat present and > 20), minus 10 (saturated fat present
    and > 5), minus 20 (sugars present and > 15), minus 15 (salt present and
    > 1.5), minus 10 (sodium present and > 600), plus 10 (fiber present and
    > 3), plus 5 (proteins present and > 10); the record
    {fat_100g: 25, sugars_100g: 20, fiber_100g: 5} scores 75; and the result
    always lies in [0,100]. *)
Theorem getHealthScore_formula :
  (forall facts, getHealthScore facts = score_spec facts) /\
  getHealthScore scenario4 = 75%Z /\
  (forall facts, (0 <= getHealthScore facts <= 100)%Z).
Proof.
  split; [exact getHealthScore_spec|].
  split; [reflexivity|exact getHealthScore_range].
Qed.

(** C5: the record with every field absent scores exactly 100; the score of
    any record is an integer of [0,100] (there is no error result); and a
    field that is absent contributes nothing: its contribution is 0 and the
    score is the clamp of 100 plus the contributions of the other fields. *)
Theorem getHealthScore_absent_fields :
  getHealthScore empty_nutriments = 100%Z /\
  (forall facts, (0 <= getHealthScore facts <= 100)%Z) /\
  (forall facts f,
      get f facts = None ->
      contribution f facts = 0%Z /\
      getHealthScore facts = clamp 0 100 (100 + total (others f) facts)).
Proof.
  split; [reflexivity|].
  split; [exact getHealthScore_range|].
  intros facts f Hf.
  pose proof (contribution_absent f facts Hf) as H0.
  split; [exact H0|].
  rewrite getHealthScore_total, (total_others f), H0.
  reflexivity.
Qed.

Lemma getHealthScore_absent_fields_witness :
  get Salt scenario4 = None /\
  contribution Salt scenario4 = 0%Z /\
  getHealthScore scenario4 = clamp 0 100 (100 + total (others Salt) scenario4).
Proof.
  split; [reflexivity|].
  apply (proj2 (proj2 getHealthScore_absent_fields) scenario4 Salt).
  reflexivity.
Defined.

(** C8: holding the other fields fixed, the score does not increase when a
    penalty field (fat, saturated fat, sugars, salt, sodium) grows, and does
    not decrease when a bonus field (fiber, proteins) grows: for values
    v1 <= v2 of the field, the score at v2 is <= (respectively >=) the score
    at v1. *)
Theorem getHealthScore_monotone
    (facts : Nutriments) (f : NutrientField) (v1 v2 : JS.number) :
  JS.le v1 v2 = true ->
  (is_penalty f = true ->
   (getHealthScore (set f (Some v2) facts)
    <= getHealthScore (set f (Some v1) facts))%Z) /\
  (is_bonus f = true ->
   (getHealthScore (set f (Some v1) facts)
    <= getHealthScore (set f (Some v2) facts))%Z).
Proof.
  intro Hle.
  assert (Hup : forall t, above (Some v1) t = true -> above (Some v2) t = true).
  { intros t H. unfold above in *; simpl in *.
    exact (gt_le_trans v1 v2 (JS.Finite t) H Hle). }
  destruct facts as [en fa sf ca su fi pr sa so].
  split; intro Hk; destruct f; try discriminate Hk;
    unfold getHealthScore; simpl;
    match goal with
    | |- context [above (Some v1) ?t] =>
      specialize (Hup t);
      destruct (above (Some v1) t), (above (Some v2) t)
    end;
    try (specialize (Hup eq_refl); discriminate Hup);
    seven_tests; lia.
Qed.

Lemma getHealthScore_monotone_witness :
  JS.le (JS.Finite 10) (JS.Finite 30) = true /\
  is_penalty Fat = true /\
  (getHealthScore (set Fat (Some (JS.Finite 30)) scenario4)
   <= getHealthScore (set Fat (Some (JS.Finite 10)) scenario4))%Z.
Proof.
  split; [reflexivity|]. split; [reflexivity|].
  apply (proj1 (getHealthScore_monotone scenario4 Fat
                  (JS.Finite 10) (JS.Finite 30) eq_refl)).
  reflexivity.
Defined.

(** C10: the score does not depend on energy or carbohydrates: two records
    that agree on fat, saturated fat, sugars, salt, sodium, fiber and
    proteins have the same score, whatever their energy and carbohydrate
    fields are. *)
Theorem getHealthScore_ignores_energy_carbohydrates (n1 n2 : Nutriments) :
  (forall f, f <> Energy -> f <> Carbohydrates ->
             JS.same_opt (get f n1) (get f n2)) ->
  getHealthScore n1 = getHealthScore n2.
Proof.
  intro H.
  assert (Hf : forall f t, f <> Energy -> f <> Carbohydrates ->
                           above (get f n1) t = above (get f n2) t).
  { intros f t HE HC. apply above_same, H; assumption. }
  unfold getHealthScore.
  rewrite (Hf Fat), (Hf SaturatedFat), (Hf Sugars), (Hf Salt),
          (Hf Sodium), (Hf Fiber), (Hf Proteins) by discriminate.
  reflexivity.
Qed.

Lemma getHealthScore_ignores_energy_carbohydrates_witness :
  getHealthScore scenario4
  = getHealthScore
      (set Energy (Some (JS.Finite 540))
         (set Carbohydrates (Some JS.PosInf)
            (set Fat (Some (JS.Finite (50 # 2))) scenario4))).
Proof.
  apply getHealthScore_ignores_energy_carbohydrates.
  exact scenario4_agrees.
Defined.

(** * Properties of the display helpers *)

Lemma scoreBand_excellent (s : JS.number) :
  JS.ge s 80%Q = true ->
  scoreBand s = mkBand "Excellent" "health-score-excellent".
Proof.
  intro H. unfold scoreBand, getHealthScoreText, getHealthScoreClass.
  now rewrite H.
Qed.

Lemma scoreBand_good (s : JS.number) :
  JS.ge s 60%Q = true -> JS.lt s 80%Q = true ->
  scoreBand s = mkBand "Good" "health-score-good".
Proof.
  intros H60 H80. apply lt_ge_false in H80.
  unfold scoreBand, getHealthScoreText, getHealthScoreClass.
  now rewrite H80, H60.
Qed.

Lemma scoreBand_fair (s : JS.number) :
  JS.ge s 40%Q = true -> JS.lt s 60%Q = true ->
  scoreBand s = mkBand "Fair" "health-score-fair".
Proof.
  intros H40 H60. apply lt_ge_false in H60.
  assert (H80 : JS.ge s 80%Q = false).
  { destruct (JS.ge s 80%Q) eqn:E; [|reflexivity].
    apply (ge_trans_const s 80 60) in E; [congruence|discriminate]. }
  unfold scoreBand, getHealthScoreText, getHealthScoreClass.
  now rewrite H80, H60, H40.
Qed.

Lemma scoreBand_poor (s : JS.number) :
  JS.ge s 80%Q = false ->
  JS.ge s 60%Q && JS.lt s 80%Q = false ->
  JS.ge s 40%Q && JS.lt s 60%Q = false ->
  scoreBand s = mkBand "Poor" "health-score-poor".
Proof.
  intros H80 H60 H40.
  assert (E60 : JS.ge s 60%Q = false).
  { destruct (JS.ge s 60%Q) eqn:E; [|reflexivity].
    rewrite (ge_false_lt s 80%Q) in H60; try assumption; try reflexivity.
    destruct s; simpl in *; try discriminate.
    unfold JS.ge in E; simpl in E. apply Qle_bool_iff.
    apply Qle_refl. }
  assert (E40 : JS.ge s 40%Q = false).
  { destruct (JS.ge s 40%Q) eqn:E; [|reflexivity].
    rewrite (ge_false_lt s 60%Q) in H40; try assumption; try reflexivity.
    destruct s; simpl in *; try discriminate.
    apply Qle_bool_iff. apply Qle_refl. }
  unfold scoreBand, getHealthScoreText, getHealthScoreClass.
  now rewrite H80, E60, E40.
Qed.

(** C6: [scoreBand] is defined on every number and gives the band by fixed
    thresholds, each band closed at its lower bound: "Excellent" when
    s >= 80, "Good" when 60 <= s < 80, "Fair" when 40 <= s < 60, "Poor" in
    every other case (NaN included); 80 gives "Excellent" and 60 gives
    "Good". *)
Theorem scoreBand_thresholds :
  (forall s, JS.ge s 80%Q = true ->
             scoreBand s = mkBand "Excellent" "health-score-excellent") /\
  (forall s, JS.ge s 60%Q = true -> JS.lt s 80%Q = true ->
             scoreBand s = mkBand "Good" "health-score-good") /\
  (forall s, JS.ge s 40%Q = true -> JS.lt s 60%Q = true ->
             scoreBand s = mkBand "Fair" "health-score-fair") /\
  (forall s, JS.ge s 80%Q = false ->
             JS.ge s 60%Q && JS.lt s 80%Q = false ->
             JS.ge s 40%Q && JS.lt s 60%Q = false ->
             scoreBand s = mkBand "Poor" "health-score-poor") /\
  scoreBand (of_int 80) = mkBand "Excellent" "health-score-excellent" /\
  scoreBand (of_int 60) = mkBand "Good" "health-score-good".
Proof.
  split; [exact scoreBand_excellent|].
  split; [exact scoreBand_good|].
  split; [exact scoreBand_fair|].
  split; [exact scoreBand_poor|].
  split; reflexivity.
Qed.

Lemma scoreBand_thresholds_witness :
  (JS.ge (of_int 75) 60%Q = true /\ JS.lt (of_int 75) 80%Q = true) /\
  scoreBand (of_int 75) = mkBand "Good" "health-score-good" /\
  scoreBand (JS.Finite 39.5) = mkBand "Poor" "health-score-poor" /\
  scoreBand JS.NaN = mkBand "Poor" "health-score-poor".
Proof.
  split; [split; reflexivity|].
  split.
  - apply (proj1 (proj2 scoreBand_thresholds) (of_int 75)); reflexivity.
  - split.
    + apply (proj1 (proj2 (proj2 (proj2 scoreBand_thresholds)))
               (JS.Finite 39.5)); reflexivity.
    + apply (proj1 (proj2 (proj2 (proj2 scoreBand_thresholds))) JS.NaN);
        reflexivity.
Defined.

Lemma getGradeColor_default (grade : string) :
  grade <> "A" -> grade <> "B" -> grade <> "C" ->
  grade <> "D" -> grade <> "E" ->
  getGradeColor grade = "bg-gray-500".
Proof.
  intros HA HB HC HD HE. unfold getGradeColor.
  apply String.eqb_neq in HA, HB, HC, HD, HE.
  now rewrite HA, HB, HC, HD, HE.
Qed.

(** C7: [getGradeColor] is defined on every string by the table A -> green,
    B -> lime, C -> yellow, D -> orange, E -> red; every other string, such
    as "Z", gives the gray default. *)
Theorem getGradeColor_table :
  getGradeColor "A" = "bg-green-500" /\
  getGradeColor "B" = "bg-lime-500" /\
  getGradeColor "C" = "bg-yellow-500" /\
  getGradeColor "D" = "bg-orange-500" /\
  getGradeColor "E" = "bg-red-500" /\
  (forall grade,
      grade <> "A" -> grade <> "B" -> grade <> "C" ->
      grade <> "D" -> grade <> "E" ->
      getGradeColor grade = "bg-gray-500") /\
  getGradeColor "Z" = "bg-gray-500".
Proof.
  repeat (split; [reflexivity|]).
  split; [exact getGradeColor_default|reflexivity].
Qed.

Lemma getGradeColor_table_witness :
  "a" <> "A" /\ getGradeColor "a" = "bg-gray-500".
Proof.
  split; [discriminate|].
  apply (proj1 (proj2 (proj2 (proj2 (proj2 (proj2 getGradeColor_table))))));
    discriminate.
Defined.

(** * Properties of the validator *)

Section Strings.

Lemma all_digits_strip (s : string) : all_digits (strip_non_digits s) = true.
Proof.
  induction s as [|c s IH]; simpl; [reflexivity|].
  destruct (is_digit c) eqn:E; simpl; [now rewrite E|exact IH].
Qed.

Lemma strip_all_digits (s : string) :
  all_digits s = true -> strip_non_digits s = s.
Proof.
  induction s as [|c s IH]; simpl; [reflexivity|].
  intro H. apply andb_prop in H. destruct H as [Hc Hs].
  rewrite Hc. f_equal. exact (IH Hs).
Qed.

Lemma strip_idempotent (s : string) :
  strip_non_digits (strip_non_digits s) = strip_non_digits s.
Proof. apply strip_all_digits, all_digits_strip. Qed.

Lemma test_digits_nonempty (s : string) :
  all_digits s = true -> (0 < String.length s)%nat -> test_digits s = true.
Proof. destruct s; simpl; [lia|auto]. Qed.

Lemma is_digit_value (c : ascii) :
  is_digit c = true -> (0 <= digit_value c <= 9)%Z.
Proof.
  unfold is_digit, digit_value. intro H.
  apply andb_prop in H. destruct H as [H1 H2].
  apply Nat.leb_le in H1, H2. lia.
Qed.

(** Reading index [i] of a string of digits and parsing it gives the digit
    at [i]. *)
Lemma parseInt_at_digit (s : string) :
  all_digits s = true ->
  forall i, (i < String.length s)%nat ->
            parseInt_at s i = Some (digit_at i s).
Proof.
  unfold parseInt_at, digit_at.
  induction s as [|c s IH]; simpl; intros H i Hi; [lia|].
  apply andb_prop in H. destruct H as [Hc Hs].
  destruct i as [|i]; simpl.
  - now rewrite Hc.
  - apply IH; [assumption|lia].
Qed.

Lemma digit_at_bounds (s : string) :
  all_digits s = true -> forall i, (0 <= digit_at i s <= 9)%Z.
Proof.
  unfold digit_at.
  induction s as [|c s IH]; simpl; intros H i.
  - destruct i; simpl; lia.
  - apply andb_prop in H. destruct H as [Hc Hs].
    destruct i as [|i]; simpl; [now apply is_digit_value|now apply IH].
Qed.

Lemma mod2_even (n : nat) : (n mod 2 =? 0)%nat = Nat.even n.
Proof.
  destruct (Nat.even n) eqn:E.
  - apply Nat.even_spec in E. destruct E as [k ->].
    rewrite Nat.mul_comm, Nat.Div0.mod_mul. reflexivity.
  - assert (O : Nat.odd n = true)
      by (rewrite <- Nat.negb_even, E; reflexivity).
    apply Nat.odd_spec in O. destruct O as [k ->].
    rewrite Nat.add_comm, (Nat.mul_comm 2 k), Nat.Div0.mod_add.
    reflexivity.
Qed.

Lemma weighted_sum_nonneg (w : nat -> Z) (s : string) :
  (forall i, 0 <= w i)%Z -> all_digits s = true ->
  forall n, (0 <= weighted_sum w n s)%Z.
Proof.
  intros Hw Hs n. induction n as [|n IH]; simpl; [lia|].
  pose proof (digit_at_bounds s Hs n). pose proof (Hw n). nia.
Qed.

End Strings.

Section Checksums.

Variable s : string.
Hypothesis Hs : all_digits s = true.

(** The loop of [validateEAN13], run over the first [n] indices. *)
Lemma ean13_loop (n : nat) :
  (n <= String.length s)%nat ->
  fold_left (ean13_step s) (seq 0 n) (Some 0%Z)
  = Some (weighted_sum ean13_weight n s).
Proof.
  induction n as [|n IH]; intro Hn; [reflexivity|].
  rewrite seq_S, fold_left_app, IH by lia. cbn [fold_left Nat.add weighted_sum].
  unfold ean13_step.
  rewrite parseInt_at_digit, mod2_even by (assumption || lia).
  change (ean13_weight n) with (if Nat.even n then 1%Z else 3%Z).
  destruct (Nat.even n); unfold IntOrNaN.add, IntOrNaN.mul, IntOrNaN.lift2;
    f_equal; lia.
Qed.

(** The loop of [validateUPC], run over the first [n] indices. *)
Lemma upc_loop (n : nat) :
  (n <= String.length s)%nat ->
  fold_left (upc_step s) (seq 0 n) (Some 0%Z)
  = Some (weighted_sum upca_weight n s).
Proof.
  induction n as [|n IH]; intro Hn; [reflexivity|].
  rewrite seq_S, fold_left_app, IH by lia. cbn [fold_left Nat.add weighted_sum].
  unfold upc_step.
  rewrite parseInt_at_digit, mod2_even by (assumption || lia).
  change (upca_weight n) with (if Nat.even n then 3%Z else 1%Z).
  destruct (Nat.even n); unfold IntOrNaN.add, IntOrNaN.mul, IntOrNaN.lift2;
    f_equal; lia.
Qed.

(** The check digit the code computes with [%] is the one of the formula
    with [mod]: the sum is not negative. *)
Lemma checkDigit_formula (sum : Z) :
  (0 <= sum)%Z ->
  IntOrNaN.rem
    (IntOrNaN.sub (Some 10%Z) (IntOrNaN.rem (Some sum) (Some 10%Z)))
    (Some 10%Z)
  = Some (check_digit sum).
Proof.
  intro H.
  unfold check_digit, IntOrNaN.rem, IntOrNaN.sub, IntOrNaN.lift2.
  change (10 =? 0)%Z with false. cbv iota.
  rewrite (Z.rem_mod_nonneg sum 10) by lia.
  pose proof (Z.mod_pos_bound sum 10 ltac:(lia)).
  rewrite Z.rem_mod_nonneg by lia. reflexivity.
Qed.

Lemma validateEAN13_digits :
  String.length s = 13%nat ->
  validateEAN13 s
  = (check_digit (weighted_sum ean13_weight 12 s) =? digit_at 12 s)%Z.
Proof.
  intro Hlen. unfold validateEAN13. rewrite Hlen. simpl negb. cbv iota.
  rewrite ean13_loop, parseInt_at_digit by (assumption || lia).
  rewrite checkDigit_formula; [reflexivity|].
  apply weighted_sum_nonneg; [|assumption].
  intro i. unfold ean13_weight. destruct (Nat.even i); lia.
Qed.

Lemma validateUPC_digits :
  String.length s = 12%nat ->
  validateUPC s
  = (check_digit (weighted_sum upca_weight 11 s) =? digit_at 11 s)%Z.
Proof.
  intro Hlen. unfold validateUPC. rewrite Hlen. simpl negb. cbv iota.
  rewrite upc_loop, parseInt_at_digit by (assumption || lia).
  rewrite checkDigit_formula; [reflexivity|].
  apply weighted_sum_nonneg; [|assumption].
  intro i. unfold upca_weight. destruct (Nat.even i); lia.
Qed.

End Checksums.

Lemma validateBarcode_13 (s : string) :
  String.length (normalize s) = 13%nat ->
  validateBarcode s = validateEAN13 (normalize s).
Proof.
  unfold validateBarcode, normalize. intro H. rewrite H. reflexivity.
Qed.

Lemma validateBarcode_12 (s : string) :
  String.length (normalize s) = 12%nat ->
  validateBarcode s = validateUPC (normalize s).
Proof.
  unfold validateBarcode, normalize. intro H. rewrite H. reflexivity.
Qed.

Lemma validateBarcode_short_long (s : string) :
  (String.length (normalize s) < 8 \/ 14 < String.length (normalize s))%nat ->
  validateBarcode s = false.
Proof.
  unfold validateBarcode, normalize. intro H.
  replace ((String.length (strip_non_digits s) <? 8)
           || (14 <? String.length (strip_non_digits s)))%nat with true;
    [reflexivity|].
  symmetry. apply orb_true_iff.
  destruct H as [H|H]; [left|right]; now apply Nat.ltb_lt.
Qed.

Lemma validateBarcode_other_length (s : string) :
  (8 <= String.length (normalize s) <= 14)%nat ->
  String.length (normalize s) <> 12%nat ->
  String.length (normalize s) <> 13%nat ->
  validateBarcode s = true.
Proof.
  unfold validateBarcode, normalize. intros [Hlo Hhi] H12 H13.
  replace ((String.length (strip_non_digits s) <? 8)
           || (14 <? String.length (strip_non_digits s)))%nat with false.
  - apply Nat.eqb_neq in H12, H13. rewrite H12, H13.
    apply test_digits_nonempty; [apply all_digits_strip|lia].
  - symmetry. apply orb_false_iff. split; apply Nat.ltb_ge; lia.
Qed.

(** The sum of scenario 1 is 89 and its check digit is 1. *)
Example scenario1_sum :
  weighted_sum ean13_weight 12 "4006381333931" = 89%Z /\
  check_digit 89 = 1%Z /\
  digit_at 12 "4006381333931" = 1%Z.
Proof. repeat split. Qed.

(** C2: when the normalized input has exactly 13 characters,
    [validateBarcode] returns true exactly when the digit at index 12 equals
    (10 - (S mod 10)) mod 10, S being the sum of the first 12 digits with
    weight 1 at even indices and 3 at odd indices; and "4006381333931" is
    valid. *)
Theorem validateBarcode_ean13 :
  (forall s,
      String.length (normalize s) = 13%nat ->
      (validateBarcode s = true <->
       digit_at 12 (normalize s)
       = check_digit (weighted_sum ean13_weight 12 (normalize s)))) /\
  validateBarcode "4006381333931" = true.
Proof.
  split; [|reflexivity].
  intros s Hlen.
  rewrite (validateBarcode_13 s Hlen).
  rewrite (validateEAN13_digits (normalize s) (all_digits_strip s) Hlen).
  rewrite Z.eqb_eq. split; intro H; symmetry; exact H.
Qed.

Lemma validateBarcode_ean13_witness :
  String.length (normalize "4 006381 333931") = 13%nat /\
  (validateBarcode "4 006381 333931" = true <->
   digit_at 12 (normalize "4 006381 333931")
   = check_digit (weighted_sum ean13_weight 12 (normalize "4 006381 333931"))).
Proof.
  split; [reflexivity|].
  apply (proj1 validateBarcode_ean13 "4 006381 333931").
  reflexivity.
Defined.

(** C3: when the normalized input has exactly 12 characters,
    [validateBarcode] returns true exactly when the digit at index 11 equals
    (10 - (S mod 10)) mod 10, S being the sum of the first 11 digits with
    weight 3 at even indices and 1 at odd indices (UPC-A). *)
Theorem validateBarcode_upca (s : string) :
  String.length (normalize s) = 12%nat ->
  (validateBarcode s = true <->
   digit_at 11 (normalize s)
   = check_digit (weighted_sum upca_weight 11 (normalize s))).
Proof.
  intro Hlen.
  rewrite (validateBarcode_12 s Hlen).
  rewrite (validateUPC_digits (normalize s) (all_digits_strip s) Hlen).
  rewrite Z.eqb_eq. split; intro H; symmetry; exact H.
Qed.

Lemma validateBarcode_upca_witness :
  String.length (normalize "0-36000-29145-2") = 12%nat /\
  (validateBarcode "0-36000-29145-2" = true <->
   digit_at 11 (normalize "0-36000-29145-2")
   = check_digit (weighted_sum upca_weight 11 (normalize "0-36000-29145-2"))).
Proof.
  split; [reflexivity|].
  apply (validateBarcode_upca "0-36000-29145-2").
  reflexivity.
Defined.

(** C4: [validateBarcode] is defined on every string and its result is a
    boolean: false when the normalized length is outside [8,14], in
    particular when nothing is left after normalization, and true when the
    normalized length is in [8,14] and is neither 12 nor 13. *)
Theorem validateBarcode_length_policy :
  (forall s,
      (String.length (normalize s) < 8 \/ 14 < String.length (normalize s))%nat ->
      validateBarcode s = false) /\
  (forall s, normalize s = "" -> validateBarcode s = false) /\
  (forall s,
      (8 <= String.length (normalize s) <= 14)%nat ->
      String.length (normalize s) <> 12%nat ->
      String.length (normalize s) <> 13%nat ->
      validateBarcode s = true).
Proof.
  split; [exact validateBarcode_short_long|].
  split; [|exact validateBarcode_other_length].
  intros s H. apply validateBarcode_short_long. rewrite H. simpl. lia.
Qed.

Lemma validateBarcode_length_policy_witness :
  validateBarcode "123" = false /\
  validateBarcode "abc-xyz" = false /\
  validateBarcode "abc12345678" = true.
Proof.
  split; [|split].
  - apply (proj1 validateBarcode_length_policy "123"). simpl. lia.
  - apply (proj1 (proj2 validateBarcode_length_policy) "abc-xyz").
    reflexivity.
  - apply (proj2 (proj2 validateBarcode_length_policy) "abc12345678");
      simpl; lia.
Defined.

(** C9: [validateBarcode] gives the same answer on a string and on its
    normalization, the string with every non-digit character removed. *)
Theorem validateBarcode_normalize (s : string) :
  validateBarcode s = validateBarcode (normalize s).
Proof.
  unfold validateBarcode, normalize.
  rewrite strip_idempotent. reflexivity.
Qed.


(** * More properties of the checksums *)

Section CheckDigits.

Lemma ean13_step_reads (s : string) : reads_digit s (ean13_step s).
Proof.
  intros acc i. unfold ean13_step.
  destruct acc as [a|], (parseInt_at s i) as [d|], (i mod 2 =? 0)%nat;
    simpl; intro H; split; congruence.
Qed.

Lemma upc_step_reads (s : string) : reads_digit s (upc_step s).
Proof.
  intros acc i. unfold upc_step.
  destruct acc as [a|], (parseInt_at s i) as [d|], (i mod 2 =? 0)%nat;
    simpl; intro H; split; congruence.
Qed.

Lemma loop_reads (s : string) step :
  reads_digit s step ->
  forall l acc,
    fold_left step l acc <> None ->
    acc <> None /\ forall i, In i l -> parseInt_at s i <> None.
Proof.
  intros Hstep l. induction l as [|j l IH]; simpl; intros acc H.
  - split; [exact H|]. intros i [].
  - destruct (IH _ H) as [Hacc Hl].
    destruct (Hstep _ _ Hacc) as [Ha Hj].
    split; [exact Ha|].
    intros i [<-|Hi]; [exact Hj|exact (Hl i Hi)].
Qed.

Lemma parseInt_at_some (s : string) (i : nat) :
  parseInt_at s i <> None ->
  exists c, String.get i s = Some c /\ is_digit c = true.
Proof.
  unfold parseInt_at. destruct (String.get i s) as [c|]; [|congruence].
  destruct (is_digit c) eqn:E; [|congruence].
  intros _. exists c. split; [reflexivity|exact E].
Qed.

Lemma all_digits_get (s : string) :
  (forall i, (i < String.length s)%nat ->
             exists c, String.get i s = Some c /\ is_digit c = true) ->
  all_digits s = true.
Proof.
  induction s as [|a s IH]; simpl; intro H; [reflexivity|].
  apply andb_true_intro. split.
  - destruct (H 0%nat ltac:(lia)) as [c [Hc Hd]]. simpl in Hc. congruence.
  - apply IH. intros i Hi.
    destruct (H (S i) ltac:(lia)) as [c [Hc Hd]]. simpl in Hc. eauto.
Qed.

(** A checksum function that answers true was given digits only. *)
Lemma checked_all_digits (s : string) step (n : nat) :
  reads_digit s step ->
  String.length s = S n ->
  IntOrNaN.strict_eq
    (IntOrNaN.rem
       (IntOrNaN.sub (Some 10%Z)
          (IntOrNaN.rem (fold_left step (seq 0 n) (Some 0%Z)) (Some 10%Z)))
       (Some 10%Z))
    (parseInt_at s n) = true ->
  all_digits s = true.
Proof.
  intros Hstep Hlen H.
  destruct (fold_left step (seq 0 n) (Some 0%Z)) as [sum|] eqn:Esum;
    [|discriminate H].
  destruct (parseInt_at s n) as [d|] eqn:Ed;
    [|simpl in H; discriminate H].
  assert (Hsum : fold_left step (seq 0 n) (Some 0%Z) <> None) by congruence.
  destruct (loop_reads s step Hstep _ _ Hsum) as [_ Hl].
  apply all_digits_get. intros i Hi.
  apply parseInt_at_some.
  destruct (Nat.eq_dec i n) as [->|Hne]; [congruence|].
  apply Hl, in_seq. lia.
Qed.

End CheckDigits.

Lemma validateEAN13_length (s : string) :
  validateEAN13 s = true -> String.length s = 13%nat.
Proof.
  unfold validateEAN13.
  destruct (String.length s =? 13)%nat eqn:E; cbn [negb]; [|discriminate].
  intros _. now apply Nat.eqb_eq.
Qed.

Lemma validateUPC_length (s : string) :
  validateUPC s = true -> String.length s = 12%nat.
Proof.
  unfold validateUPC.
  destruct (String.length s =? 12)%nat eqn:E; cbn [negb]; [|discriminate].
  intros _. now apply Nat.eqb_eq.
Qed.

Lemma validateEAN13_iff (s : string) :
  validateEAN13 s = true <->
  String.length s = 13%nat /\
  all_digits s = true /\
  digit_at 12 s = check_digit (weighted_sum ean13_weight 12 s).
Proof.
  split.
  - intro H. pose proof (validateEAN13_length s H) as Hlen.
    assert (Hd : all_digits s = true).
    { apply (checked_all_digits s (ean13_step s) 12 (ean13_step_reads s) Hlen).
      unfold validateEAN13 in H. rewrite Hlen in H. exact H. }
    split; [exact Hlen|]. split; [exact Hd|].
    rewrite (validateEAN13_digits s Hd Hlen) in H.
    apply Z.eqb_eq in H. symmetry. exact H.
  - intros [Hlen [Hd Hc]].
    rewrite (validateEAN13_digits s Hd Hlen). apply Z.eqb_eq.
    symmetry. exact Hc.
Qed.

Lemma validateUPC_iff (s : string) :
  validateUPC s = true <->
  String.length s = 12%nat /\
  all_digits s = true /\
  digit_at 11 s = check_digit (weighted_sum upca_weight 11 s).
Proof.
  split.
  - intro H. pose proof (validateUPC_length s H) as Hlen.
    assert (Hd : all_digits s = true).
    { apply (checked_all_digits s (upc_step s) 11 (upc_step_reads s) Hlen).
      unfold validateUPC in H. rewrite Hlen in H. exact H. }
    split; [exact Hlen|]. split; [exact Hd|].
    rewrite (validateUPC_digits s Hd Hlen) in H.
    apply Z.eqb_eq in H. symmetry. exact H.
  - intros [Hlen [Hd Hc]].
    rewrite (validateUPC_digits s Hd Hlen). apply Z.eqb_eq.
    symmetry. exact Hc.
Qed.

(** X1: [validateEAN13], called on any string, answers true exactly when
    the string has 13 characters, all of them digits, and the last one is
    the check digit of the first twelve; a character that is not a digit
    makes the sum NaN and the answer false. *)
Theorem validateEAN13_exact (s : string) :
  validateEAN13 s = true <->
  String.length s = 13%nat /\
  all_digits s = true /\
  digit_at 12 s = check_digit (weighted_sum ean13_weight 12 s).
Proof. exact (validateEAN13_iff s). Qed.

(** X2: [validateUPC], called on any string, answers true exactly when the
    string has 12 characters, all of them digits, and the last one is the
    UPC-A check digit of the first eleven. *)
Theorem validateUPC_exact (s : string) :
  validateUPC s = true <->
  String.length s = 12%nat /\
  all_digits s = true /\
  digit_at 11 s = check_digit (weighted_sum upca_weight 11 s).
Proof. exact (validateUPC_iff s). Qed.

Lemma validateUPC_as_EAN13_conv (s : string) :
  validateUPC s = validateEAN13 (String "0" s).
Proof.
  unfold validateUPC, validateEAN13.
  change (String.length (String "0" s) =? 13)%nat
    with (String.length s =? 12)%nat.
  destruct (String.length s =? 12)%nat; reflexivity.
Qed.

(** X3: a UPC-A code is an EAN-13 code with a leading zero: on every string
    [validateUPC] answers what [validateEAN13] answers on "0" followed by
    the string. *)
Theorem validateUPC_as_EAN13 (s : string) :
  validateUPC s = validateEAN13 (String "0" s).
Proof. exact (validateUPC_as_EAN13_conv s). Qed.

Section Substitution.

Lemma digit_value_inj (a c : ascii) : digit_value a = digit_value c -> a = c.
Proof.
  unfold digit_value. intro H.
  assert (Hn : nat_of_ascii a = nat_of_ascii c) by lia.
  rewrite <- (ascii_nat_embedding a), <- (ascii_nat_embedding c).
  now rewrite Hn.
Qed.

Lemma get_digit_at (s : string) :
  forall i a, String.get i s = Some a -> digit_at i s = digit_value a.
Proof.
  unfold digit_at.
  induction s as [|b s IH]; simpl; intros i a H; [discriminate|].
  destruct i as [|i]; simpl; [congruence|exact (IH i a H)].
Qed.

Lemma length_replace_at (c : ascii) (s : string) :
  forall i, String.length (replace_at i c s) = String.length s.
Proof.
  induction s as [|b s IH]; intros [|i]; simpl; auto.
Qed.

Lemma all_digits_replace_at (c : ascii) (s : string) :
  is_digit c = true -> all_digits s = true ->
  forall i, all_digits (replace_at i c s) = true.
Proof.
  intro Hc. induction s as [|b s IH]; intros Hs [|i]; simpl in *; auto.
  - apply andb_prop in Hs. destruct Hs as [_ Hs]. now rewrite Hc, Hs.
  - apply andb_prop in Hs. destruct Hs as [Hb Hs]. now rewrite Hb, IH.
Qed.

Lemma digit_at_replace_at (c : ascii) (s : string) :
  forall i j,
    (i < String.length s)%nat ->
    digit_at j (replace_at i c s)
    = if (j =? i)%nat then digit_value c else digit_at j s.
Proof.
  unfold digit_at.
  induction s as [|b s IH]; intros i j Hi; simpl in Hi; [lia|].
  destruct i as [|i], j as [|j]; simpl; try reflexivity.
  apply IH. lia.
Qed.

Lemma weighted_sum_replace_at (w : nat -> Z) (c : ascii) (s : string) (i : nat) :
  (i < String.length s)%nat ->
  forall n,
    weighted_sum w n (replace_at i c s)
    = (weighted_sum w n s
       + if (i <? n)%nat then w i * (digit_value c - digit_at i s) else 0)%Z.
Proof.
  intros Hi n. induction n as [|n IH]; [reflexivity|].
  cbn [weighted_sum]. rewrite IH, digit_at_replace_at by assumption.
  destruct (Nat.eqb_spec n i) as [->|Hne].
  - rewrite Nat.ltb_irrefl.
    replace (i <? S i)%nat with true by (symmetry; apply Nat.ltb_lt; lia).
    lia.
  - destruct (Nat.ltb_spec i n), (Nat.ltb_spec i (S n)); lia.
Qed.

(** Moving the sum by one or three times a digit difference that is not
    zero moves the check digit. *)
Lemma check_digit_moves (sum w delta : Z) :
  w = 1%Z \/ w = 3%Z ->
  delta <> 0%Z -> (-9 <= delta <= 9)%Z ->
  check_digit (sum + w * delta) <> check_digit sum.
Proof.
  unfold check_digit. intros [-> | ->] H0 Hr;
    Z.div_mod_to_equations; lia.
Qed.

Lemma weight_1_or_3 (i : nat) :
  (ean13_weight i = 1%Z \/ ean13_weight i = 3%Z) /\
  (upca_weight i = 1%Z \/ upca_weight i = 3%Z).
Proof.
  unfold ean13_weight, upca_weight. destruct (Nat.even i); auto.
Qed.

(** The common part of the two detection theorems: in a string of [S n]
    digits whose last digit is the check digit of the first [n], replacing
    one digit by another breaks that relation. *)
Lemma substitution_detected (w : nat -> Z) (n : nat) (s : string)
    (i : nat) (c : ascii) :
  (forall k, w k = 1%Z \/ w k = 3%Z) ->
  String.length s = S n ->
  all_digits s = true ->
  digit_at n s = check_digit (weighted_sum w n s) ->
  (i < S n)%nat ->
  is_digit c = true ->
  String.get i s <> Some c ->
  digit_at n (replace_at i c s)
  <> check_digit (weighted_sum w n (replace_at i c s)).
Proof.
  intros Hw Hlen Hs Hck Hi Hc Hne.
  assert (Hd : digit_value c <> digit_at i s).
  { intro E. apply Hne.
    destruct (String.get i s) as [a|] eqn:G.
    - rewrite (get_digit_at s i a G) in E.
      now rewrite (digit_value_inj _ _ E).
    - pose proof (parseInt_at_digit s Hs i ltac:(lia)) as P.
      unfold parseInt_at in P. rewrite G in P. discriminate P. }
  pose proof (is_digit_value c Hc) as Bc.
  pose proof (digit_at_bounds s Hs i) as Bi.
  rewrite weighted_sum_replace_at, digit_at_replace_at by lia.
  destruct (Nat.eqb_spec n i) as [<-|Hni].
  - rewrite Nat.ltb_irrefl, Z.add_0_r, <- Hck. exact Hd.
  - replace (i <? n)%nat with true by (symmetry; apply Nat.ltb_lt; lia).
    rewrite Hck. intro E. symmetry in E. revert E.
    apply check_digit_moves; [apply Hw|lia|lia].
Qed.

End Substitution.

(** X4: [validateEAN13] detects every single-digit error: when it accepts a
    string, it rejects the string obtained by replacing the character at
    any one of the 13 positions by a different digit. *)
Theorem validateEAN13_detects_substitution (s : string) (i : nat) (c : ascii) :
  validateEAN13 s = true ->
  (i < 13)%nat ->
  is_digit c = true ->
  String.get i s <> Some c ->
  validateEAN13 (replace_at i c s) = false.
Proof.
  intros Hv Hi Hc Hne.
  apply validateEAN13_iff in Hv. destruct Hv as [Hlen [Hs Hck]].
  apply not_true_is_false. intro Hv'.
  apply validateEAN13_iff in Hv'. destruct Hv' as [_ [_ Hck']].
  revert Hck'.
  apply substitution_detected; try assumption.
  intro k. apply weight_1_or_3.
Qed.

Lemma validateEAN13_detects_substitution_witness :
  validateEAN13 "4006381333931" = true /\
  validateEAN13 (replace_at 5 "9" "4006381333931") = false.
Proof.
  split; [reflexivity|].
  apply (validateEAN13_detects_substitution "4006381333931" 5 "9");
    [reflexivity|lia|reflexivity|discriminate].
Defined.

(** X5: [validateUPC] detects every single-digit error in the same way, at
    any one of the 12 positions. *)
Theorem validateUPC_detects_substitution (s : string) (i : nat) (c : ascii) :
  validateUPC s = true ->
  (i < 12)%nat ->
  is_digit c = true ->
  String.get i s <> Some c ->
  validateUPC (replace_at i c s) = false.
Proof.
  intros Hv Hi Hc Hne.
  apply validateUPC_iff in Hv. destruct Hv as [Hlen [Hs Hck]].
  apply not_true_is_false. intro Hv'.
  apply validateUPC_iff in Hv'. destruct Hv' as [_ [_ Hck']].
  revert Hck'.
  apply substitution_detected; try assumption.
  intro k. apply weight_1_or_3.
Qed.

Lemma validateUPC_detects_substitution_witness :
  validateUPC "036000291452" = true /\
  validateUPC (replace_at 11 "3" "036000291452") = false.
Proof.
  split; [reflexivity|].
  apply (validateUPC_detects_substitution "036000291452" 11 "3");
    [reflexivity|lia|reflexivity|discriminate].
Defined.

Section Completion.

Lemma length_app_string (a b : string) :
  String.length (a ++ b) = (String.length a + String.length b)%nat.
Proof. induction a as [|x a IH]; simpl; [reflexivity|now rewrite IH]. Qed.

Lemma all_digits_app (a b : string) :
  all_digits (a ++ b) = all_digits a && all_digits b.
Proof.
  induction a as [|x a IH]; simpl; [reflexivity|].
  now rewrite IH, andb_assoc.
Qed.

Lemma digit_at_app_l (a b : string) :
  forall i, (i < String.length a)%nat -> digit_at i (a ++ b) = digit_at i a.
Proof.
  unfold digit_at.
  induction a as [|x a IH]; simpl; intros i Hi; [lia|].
  destruct i as [|i]; simpl; [reflexivity|apply IH; lia].
Qed.

Lemma digit_at_app_r (a : string) (c : ascii) (b : string) :
  digit_at (String.length a) (a ++ String c b) = digit_value c.
Proof.
  unfold digit_at. induction a as [|x a IH]; simpl; [reflexivity|exact IH].
Qed.

Lemma weighted_sum_app (w : nat -> Z) (a b : string) :
  forall n, (n <= String.length a)%nat ->
            weighted_sum w n (a ++ b) = weighted_sum w n a.
Proof.
  induction n as [|n IH]; intro Hn; [reflexivity|].
  cbn [weighted_sum]. rewrite IH, digit_at_app_l by lia. reflexivity.
Qed.

Lemma check_digit_range (sum : Z) : (0 <= check_digit sum <= 9)%Z.
Proof.
  unfold check_digit.
  pose proof (Z.mod_pos_bound (10 - sum mod 10) 10 ltac:(lia)). lia.
Qed.

Lemma digit_char_digit (d : Z) :
  (0 <= d <= 9)%Z ->
  is_digit (digit_char d) = true /\ digit_value (digit_char d) = d.
Proof.
  intro H.
  assert (E : (d = 0 \/ d = 1 \/ d = 2 \/ d = 3 \/ d = 4 \/
               d = 5 \/ d = 6 \/ d = 7 \/ d = 8 \/ d = 9)%Z) by lia.
  repeat (destruct E as [-> | E]; [split; reflexivity|]).
  subst d. split; reflexivity.
Qed.

(** Appending a character [c] to [n] digits, with the weights [w]: the
    result passes the check exactly when [c] is the check digit. *)
Lemma completion (w : nat -> Z) (p : string) (c : ascii) :
  all_digits p = true ->
  (all_digits (p ++ String c "") = true /\
   digit_at (String.length p) (p ++ String c "")
   = check_digit (weighted_sum w (String.length p) (p ++ String c "")))
  <-> c = digit_char (check_digit (weighted_sum w (String.length p) p)).
Proof.
  intro Hp.
  rewrite all_digits_app, Hp, digit_at_app_r, weighted_sum_app by lia.
  simpl. rewrite andb_true_r.
  pose proof (check_digit_range (weighted_sum w (String.length p) p)) as R.
  destruct (digit_char_digit _ R) as [Hd Hv].
  split.
  - intros [_ E]. apply digit_value_inj. now rewrite Hv.
  - intros ->. split; [exact Hd|exact Hv].
Qed.

Lemma strip_app (a b : string) :
  strip_non_digits (a ++ b) = strip_non_digits a ++ strip_non_digits b.
Proof.
  induction a as [|x a IH]; simpl; [reflexivity|].
  destruct (is_digit x); simpl; now rewrite IH.
Qed.

End Completion.

(** X6: twelve digits have exactly one check character: [validateEAN13]
    accepts the twelve digits followed by a character exactly when that
    character is the digit (10 - (S mod 10)) mod 10 of their weighted sum
    S. *)
Theorem validateEAN13_check_character (p : string) (c : ascii) :
  all_digits p = true ->
  String.length p = 12%nat ->
  (validateEAN13 (p ++ String c "") = true <->
   c = digit_char (check_digit (weighted_sum ean13_weight 12 p))).
Proof.
  intros Hp Hlen.
  rewrite validateEAN13_iff, length_app_string, Hlen.
  pose proof (completion ean13_weight p c Hp) as C.
  rewrite Hlen in C. simpl String.length.
  split.
  - intros [_ H]. apply C. exact H.
  - intro H. split; [reflexivity|]. apply C. exact H.
Qed.

Lemma validateEAN13_check_character_witness :
  validateEAN13 ("400638133393" ++ "1") = true <->
  "1"%char = digit_char (check_digit (weighted_sum ean13_weight 12 "400638133393")).
Proof.
  apply (validateEAN13_check_character "400638133393" "1"); reflexivity.
Defined.

(** X7: eleven digits have exactly one UPC-A check character: [validateUPC]
    accepts the eleven digits followed by a character exactly when that
    character is the digit (10 - (S mod 10)) mod 10 of their weighted sum
    S. *)
Theorem validateUPC_check_character (p : string) (c : ascii) :
  all_digits p = true ->
  String.length p = 11%nat ->
  (validateUPC (p ++ String c "") = true <->
   c = digit_char (check_digit (weighted_sum upca_weight 11 p))).
Proof.
  intros Hp Hlen.
  rewrite validateUPC_iff, length_app_string, Hlen.
  pose proof (completion upca_weight p c Hp) as C.
  rewrite Hlen in C. simpl String.length.
  split.
  - intros [_ H]. apply C. exact H.
  - intro H. split; [reflexivity|]. apply C. exact H.
Qed.

Lemma validateUPC_check_character_witness :
  validateUPC ("03600029145" ++ "2") = true <->
  "2"%char = digit_char (check_digit (weighted_sum upca_weight 11 "03600029145")).
Proof.
  apply (validateUPC_check_character "03600029145" "2"); reflexivity.
Defined.

(** X8: characters that are not digits (spaces, hyphens, letters) can be
    put anywhere in the input without changing the answer of
    [validateBarcode]. *)
Theorem validateBarcode_separator (a b : string) (c : ascii) :
  is_digit c = false ->
  validateBarcode (a ++ String c b) = validateBarcode (a ++ b).
Proof.
  intro Hc. unfold validateBarcode.
  rewrite !strip_app. simpl. rewrite Hc. reflexivity.
Qed.

Lemma validateBarcode_separator_witness :
  validateBarcode ("4006381" ++ String "-" "333931")
  = validateBarcode ("4006381" ++ "333931").
Proof.
  apply (validateBarcode_separator "4006381" "333931" "-"). reflexivity.
Defined.

(** * The manual barcode field *)

Lemma oninput_valid_length (typed : string) :
  has_is_valid (barcodeInput_oninput typed) = true <->
  (8 <= String.length (strip_non_digits typed) <= 14)%nat.
Proof.
  unfold barcodeInput_oninput; cbn [has_is_valid].
  rewrite !andb_true_iff, !Nat.leb_le, Nat.ltb_lt. lia.
Qed.

Lemma oninput_invalid_length (typed : string) :
  has_is_invalid (barcodeInput_oninput typed) = true <->
  (0 < String.length (strip_non_digits typed) < 8
   \/ 14 < String.length (strip_non_digits typed))%nat.
Proof.
  unfold barcodeInput_oninput; cbn [has_is_invalid].
  rewrite andb_true_iff, negb_true_iff, andb_false_iff,
    !Nat.leb_gt, Nat.ltb_lt. lia.
Qed.

(** X9: after the input handler of the manual barcode field has run, the
    field holds digits only, [is-valid] and [is-invalid] are never both
    set, neither is set exactly when the field is empty, and running the
    handler again on the field's new content changes nothing. *)
Theorem barcodeInput_oninput_feedback (typed : string) :
  let f := barcodeInput_oninput typed in
  all_digits (entry_value f) = true /\
  has_is_valid f && has_is_invalid f = false /\
  (has_is_valid f = false /\ has_is_invalid f = false
   <-> entry_value f = "") /\
  barcodeInput_oninput (entry_value f) = f.
Proof.
  intro f. subst f.
  pose proof (oninput_valid_length typed) as V.
  pose proof (oninput_invalid_length typed) as I.
  split; [apply all_digits_strip|].
  split; [|split].
  - destruct (has_is_valid (barcodeInput_oninput typed)); [|reflexivity].
    destruct (has_is_invalid (barcodeInput_oninput typed)); [|reflexivity].
    exfalso. destruct V as [V _], I as [I _].
    specialize (V eq_refl). specialize (I eq_refl). lia.
  - cbn [entry_value barcodeInput_oninput].
    split.
    + intros [Hv Hi].
      destruct (strip_non_digits typed) as [|c s]; [reflexivity|].
      exfalso. simpl String.length in V, I.
      assert (D : (8 <= S (String.length s) <= 14
                   \/ (0 < S (String.length s) < 8
                       \/ 14 < S (String.length s)))%nat) by lia.
      destruct D as [D|D]; [apply V in D|apply I in D]; congruence.
    + intro E. rewrite E in V, I. simpl String.length in V, I.
      split; apply not_true_is_false; intro H;
        [apply V in H|apply I in H]; lia.
  - unfold barcodeInput_oninput; cbn [entry_value].
    rewrite strip_idempotent. reflexivity.
Qed.



(** * More properties of the estimator and of the score displays *)

(** Turn a test on rationals into the order fact it decides. *)
Lemma Qle_bool_false (a b : Q) : Qle_bool a b = false -> (b < a)%Q.
Proof.
  intro H. apply Qnot_le_lt. intro L. apply Qle_bool_iff in L. congruence.
Qed.

Ltac order_facts :=
  unfold JS.ge, JS.gt, JS.lt, JS.le, JS.Qlt_bool in *;
  repeat match goal with
         | H : context [Qle_bool ?a ?b] |- _ =>
           let E := fresh "E" in
           destruct (Qle_bool a b) eqn:E;
           [apply Qle_bool_iff in E | apply Qle_bool_false in E]
         | |- context [Qle_bool ?a ?b] =>
           let E := fresh "E" in
           destruct (Qle_bool a b) eqn:E;
           [apply Qle_bool_iff in E | apply Qle_bool_false in E]
         end.

(** X11: the score is always a multiple of 5 between 30 and 100: the five
    penalties add up to 70, so the lower clamp at 0 never applies and the
    score is min(100, 100 + the contributions of the fields). *)
Theorem getHealthScore_tight (n : Nutriments) :
  (30 <= getHealthScore n <= 100)%Z /\
  (getHealthScore n mod 5 = 0)%Z /\
  getHealthScore n = Z.min 100 (100 + total all_fields n).
Proof.
  unfold getHealthScore, total, all_fields, contribution; simpl.
  rewrite <- !above_present.
  seven_tests; repeat split; reflexivity || (cbv; congruence).
Qed.

(** X12: missing data never lowers the score: removing a penalty field
    (fat, saturated fat, sugars, salt, sodium) from a record cannot decrease
    its score, and removing a bonus field (fiber, proteins) cannot increase
    it. *)
Theorem getHealthScore_without_field (n : Nutriments) (f : NutrientField) :
  (is_penalty f = true ->
   (getHealthScore n <= getHealthScore (set f None n))%Z) /\
  (is_bonus f = true ->
   (getHealthScore (set f None n) <= getHealthScore n)%Z).
Proof.
  destruct n as [en fa sf ca su fi pr sa so].
  split; intro Hk; destruct f; try discriminate Hk;
    unfold getHealthScore; simpl; rewrite ?above_absent;
    seven_tests; lia.
Qed.

Lemma getHealthScore_without_field_witness :
  (getHealthScore scenario4 <= getHealthScore (set Sugars None scenario4))%Z /\
  (getHealthScore (set Fiber None scenario4) <= getHealthScore scenario4)%Z.
Proof.
  split.
  - apply (proj1 (getHealthScore_without_field scenario4 Sugars)).
    reflexivity.
  - apply (proj2 (getHealthScore_without_field scenario4 Fiber)).
    reflexivity.
Defined.

(** X13: the colour of the product page and the text of the score helpers
    agree on the two upper bands and only there: green is "Excellent",
    yellow is "Good", and red covers both "Fair" and "Poor". *)
Theorem getScoreColor_getHealthScoreText (s : JS.number) :
  (getScoreColor s = "text-green-600" <-> getHealthScoreText s = "Excellent") /\
  (getScoreColor s = "text-yellow-600" <-> getHealthScoreText s = "Good") /\
  (getScoreColor s = "text-red-600" <->
   getHealthScoreText s = "Fair" \/ getHealthScoreText s = "Poor").
Proof.
  unfold getScoreColor, getHealthScoreText.
  destruct (JS.ge s 80%Q), (JS.ge s 60%Q), (JS.ge s 40%Q);
    repeat split; intros; try discriminate; try reflexivity; auto;
    match goal with
    | H : _ \/ _ |- _ => destruct H; discriminate
    end.
Qed.

(** X14: a product without a [nutriments] object, or one none of whose
    penalty fields is above its threshold, is given the full score 100 on
    the product page, shown in green. *)
Theorem productHealthScore_no_penalty (nutriments : option Nutriments) :
  (forall n f, nutriments = Some n -> is_penalty f = true ->
               contribution f n = 0%Z) ->
  productHealthScore nutriments = 100%Z /\
  getScoreColor (of_int (productHealthScore nutriments)) = "text-green-600".
Proof.
  intro H.
  assert (E : productHealthScore nutriments = 100%Z).
  { destruct nutriments as [n|]; [|reflexivity].
    unfold productHealthScore.
    pose proof (H n Fat eq_refl eq_refl) as H1.
    pose proof (H n SaturatedFat eq_refl eq_refl) as H2.
    pose proof (H n Sugars eq_refl eq_refl) as H3.
    pose proof (H n Salt eq_refl eq_refl) as H4.
    pose proof (H n Sodium eq_refl eq_refl) as H5.
    rewrite getHealthScore_total.
    unfold total, all_fields; simpl.
    rewrite H1, H2, H3, H4, H5.
    unfold contribution; simpl.
    destruct (present_and_above (fiber_100g n) 3),
             (present_and_above (proteins_100g n) 10); reflexivity. }
  split; [exact E|]. rewrite E. reflexivity.
Qed.

Lemma productHealthScore_no_penalty_witness :
  productHealthScore
    (Some (set Sugars (Some (JS.Finite 15))
             (set Fat (Some (JS.Finite 20)) scenario4))) = 100%Z /\
  getScoreColor
    (of_int (productHealthScore
               (Some (set Sugars (Some (JS.Finite 15))
                        (set Fat (Some (JS.Finite 20)) scenario4)))))
  = "text-green-600".
Proof.
  apply (productHealthScore_no_penalty
           (Some (set Sugars (Some (JS.Finite 15))
                    (set Fat (Some (JS.Finite 20)) scenario4)))).
  intros n f E Hp. injection E as <-.
  destruct f; try discriminate Hp; reflexivity.
Defined.

(** X15: a progress bar of the dashboard is never wider than 100 percent,
    and its colour is decided by the value it was given: the capped value
    is not above 100; the bar is [bg-success] exactly for values >= 100,
    [bg-warning] exactly for 75 <= value < 100, and [bg-info] in every
    other case, NaN included. *)
Theorem updateProgressBar_capped (value : JS.number) :
  let bar := updateProgressBar value in
  JS.gt (aria_valuenow bar) 100%Q = false /\
  (bar_colour bar = "bg-success" <-> JS.ge value 100%Q = true) /\
  (bar_colour bar = "bg-warning" <->
   JS.ge value 75%Q = true /\ JS.lt value 100%Q = true) /\
  (bar_colour bar = "bg-info" <-> JS.ge value 75%Q = false).
Proof.
  unfold updateProgressBar, Math_min; cbn [aria_valuenow bar_colour].
  destruct value as [q| | |]; cbn [JS.le];
    try (repeat split; intros; try discriminate; try reflexivity;
         match goal with H : _ /\ _ |- _ => destruct H; discriminate end).
  destruct (Qle_bool q 100) eqn:C;
    [apply Qle_bool_iff in C | apply Qle_bool_false in C];
    order_facts; repeat split; intros;
    try discriminate; try reflexivity; try lra;
    match goal with H : _ /\ _ |- _ => destruct H; discriminate end.
Qed.

(** X16: the doughnut of the product detail script is grey exactly when the
    parsed score is NaN or negative, and green exactly when it is 0: the
    guard [>= 0] comes before the test [<= 0], so no negative score is
    ever green; it is red exactly for scores above 15. *)
Theorem chartScoreColor_bands (v : JS.number) :
  (chartScoreColor v = "#ccc" <-> JS.ge v 0%Q = false) /\
  (chartScoreColor v = "#28a745" <-> JS.same v (JS.Finite 0)) /\
  (chartScoreColor v = "#dc3545" <-> JS.gt v 15%Q = true) /\
  (JS.lt v 0%Q = true -> chartScoreColor v = "#ccc").
Proof.
  unfold chartScoreColor.
  destruct v as [q| | |]; cbn [JS.same];
    try (cbv; repeat split; intros; try discriminate; try reflexivity;
         contradiction).
  assert (Z0 : forall a : Q, (a == 0)%Q <-> (0 <= a)%Q /\ (a <= 0)%Q).
  { intro a. split; [intro E; rewrite E; split; apply Qle_refl|].
    intros [A B]. apply Qle_antisym; assumption. }
  rewrite Z0.
  order_facts; repeat split; intros;
    try discriminate; try reflexivity; try lra;
    match goal with H : _ /\ _ |- _ => destruct H; lra end.
Qed.

Lemma chartScoreColor_bands_witness :
  chartScoreColor (of_int (-3)) = "#ccc".
Proof.
  apply (proj2 (proj2 (proj2 (chartScoreColor_bands (of_int (-3)))))).
  reflexivity.
Defined.

(** * Transpositions *)

Section Transposition.

Lemma all_digits_at (s : string) :
  all_digits s = true ->
  forall i a, String.get i s = Some a -> is_digit a = true.
Proof.
  induction s as [|x s IH]; simpl; intros H i a G; [discriminate|].
  apply andb_prop in H. destruct H as [Hx Hs].
  destruct i as [|i]; [congruence|exact (IH Hs i a G)].
Qed.

Lemma get_in_range (s : string) :
  forall i a, String.get i s = Some a -> (i < String.length s)%nat.
Proof.
  induction s as [|x s IH]; simpl; intros i a G; [discriminate|].
  destruct i as [|i]; [lia|]. apply IH in G. lia.
Qed.

(** Moving the sum by twice a digit difference keeps the check digit
    exactly when the difference is a multiple of 5. *)
Lemma check_digit_twice (sum delta : Z) :
  check_digit (sum + 2 * delta) = check_digit sum <-> (delta mod 5 = 0)%Z.
Proof.
  unfold check_digit. split; intro H; Z.div_mod_to_equations; lia.
Qed.

Variable w : nat -> Z.
Hypothesis w_alternates :
  forall k, (w k = 1 /\ w (S k) = 3)%Z \/ (w k = 3 /\ w (S k) = 1)%Z.

(** In a checked string of [S n] digits, exchanging the digits at [i] and
    [i+1], both before the check digit. *)
Lemma transposition_checked (n : nat) (s : string) (i : nat) (a b : ascii) :
  String.length s = S n ->
  all_digits s = true ->
  digit_at n s = check_digit (weighted_sum w n s) ->
  (S i < n)%nat ->
  String.get i s = Some a ->
  String.get (S i) s = Some b ->
  let s' := replace_at i b (replace_at (S i) a s) in
  String.length s' = S n /\
  all_digits s' = true /\
  (digit_at n s' = check_digit (weighted_sum w n s')
   <-> ((digit_value a - digit_value b) mod 5 = 0)%Z).
Proof.
  intros Hlen Hs Hck Hi Ga Gb s'. subst s'.
  pose proof (all_digits_at s Hs _ _ Ga) as Da.
  pose proof (all_digits_at s Hs _ _ Gb) as Db.
  split; [now rewrite !length_replace_at|].
  split; [apply all_digits_replace_at; auto;
          apply all_digits_replace_at; auto|].
  rewrite (weighted_sum_replace_at w b _ i)
    by (rewrite length_replace_at; lia).
  rewrite (weighted_sum_replace_at w a s (S i)) by lia.
  rewrite (digit_at_replace_at b _ i n) by (rewrite length_replace_at; lia).
  rewrite (digit_at_replace_at a s (S i) n) by lia.
  rewrite (digit_at_replace_at a s (S i) i) by lia.
  rewrite (get_digit_at s i a Ga), (get_digit_at s (S i) b Gb).
  replace (n =? i)%nat with false by (symmetry; apply Nat.eqb_neq; lia).
  replace (n =? S i)%nat with false by (symmetry; apply Nat.eqb_neq; lia).
  replace (i =? S i)%nat with false by (symmetry; apply Nat.eqb_neq; lia).
  replace (i <? n)%nat with true by (symmetry; apply Nat.ltb_lt; lia).
  replace (S i <? n)%nat with true by (symmetry; apply Nat.ltb_lt; lia).
  rewrite Hck.
  set (W := weighted_sum w n s).
  set (da := digit_value a). set (db := digit_value b).
  destruct (w_alternates i) as [[-> ->]|[-> ->]].
  - replace (W + 3 * (da - db) + 1 * (db - da))%Z
      with (W + 2 * (da - db))%Z by lia.
    split; intro H.
    + apply (check_digit_twice W). now symmetry.
    + symmetry. now apply check_digit_twice.
  - replace (W + 1 * (da - db) + 3 * (db - da))%Z
      with (W + 2 * (db - da))%Z by lia.
    split; intro H.
    + symmetry in H. apply check_digit_twice in H.
      Z.div_mod_to_equations; lia.
    + symmetry. apply check_digit_twice.
      Z.div_mod_to_equations; lia.
Qed.

End Transposition.

Lemma weights_alternate :
  (forall k, (ean13_weight k = 1 /\ ean13_weight (S k) = 3)%Z
             \/ (ean13_weight k = 3 /\ ean13_weight (S k) = 1)%Z) /\
  (forall k, (upca_weight k = 1 /\ upca_weight (S k) = 3)%Z
             \/ (upca_weight k = 3 /\ upca_weight (S k) = 1)%Z).
Proof.
  split; intro k; unfold ean13_weight, upca_weight;
    rewrite Nat.even_succ, <- Nat.negb_even;
    destruct (Nat.even k); simpl; auto.
Qed.

(** X17: the limit of the EAN-13 check: when [validateEAN13] accepts a
    string, it still accepts it after two neighbouring digits among the
    first twelve are exchanged exactly when the two digits are equal or
    differ by 5; every other exchange of neighbours is detected. *)
Theorem validateEAN13_transposition (s : string) (i : nat) (a b : ascii) :
  validateEAN13 s = true ->
  (S i < 12)%nat ->
  String.get i s = Some a ->
  String.get (S i) s = Some b ->
  (validateEAN13 (replace_at i b (replace_at (S i) a s)) = true
   <-> ((digit_value a - digit_value b) mod 5 = 0)%Z).
Proof.
  intros Hv Hi Ga Gb.
  apply validateEAN13_iff in Hv. destruct Hv as [Hlen [Hs Hck]].
  destruct (transposition_checked ean13_weight (proj1 weights_alternate)
              12 s i a b Hlen Hs Hck Hi Ga Gb) as [L [D C]].
  rewrite validateEAN13_iff. tauto.
Qed.

Lemma validateEAN13_transposition_witness :
  (validateEAN13 (replace_at 4 "8" (replace_at 5 "3" "4006381333931")) = true
   <-> ((digit_value "3" - digit_value "8") mod 5 = 0)%Z) /\
  validateEAN13 "4006831333931" = true.
Proof.
  split; [|reflexivity].
  apply (validateEAN13_transposition "4006381333931" 4 "3" "8");
    [reflexivity|lia|reflexivity|reflexivity].
Defined.

(** X18: the same limit for UPC-A: an exchange of two neighbouring digits
    among the first eleven goes unnoticed by [validateUPC] exactly when the
    two digits are equal or differ by 5. *)
Theorem validateUPC_transposition (s : string) (i : nat) (a b : ascii) :
  validateUPC s = true ->
  (S i < 11)%nat ->
  String.get i s = Some a ->
  String.get (S i) s = Some b ->
  (validateUPC (replace_at i b (replace_at (S i) a s)) = true
   <-> ((digit_value a - digit_value b) mod 5 = 0)%Z).
Proof.
  intros Hv Hi Ga Gb.
  apply validateUPC_iff in Hv. destruct Hv as [Hlen [Hs Hck]].
  destruct (transposition_checked upca_weight (proj2 weights_alternate)
              11 s i a b Hlen Hs Hck Hi Ga Gb) as [L [D C]].
  rewrite validateUPC_iff. tauto.
Qed.

Lemma validateUPC_transposition_witness :
  validateUPC (replace_at 1 "6" (replace_at 2 "3" "036000291452")) = true
  <-> ((digit_value "3" - digit_value "6") mod 5 = 0)%Z.
Proof.
  apply (validateUPC_transposition "036000291452" 1 "3" "6");
    [reflexivity|lia|reflexivity|reflexivity].
Defined.

(** X19: [validateBarcode] treats a 12-digit code and the same code with a
    leading zero alike: when the input has exactly 12 digits, putting "0"
    in front of it does not change the answer. *)
Theorem validateBarcode_leading_zero (s : string) :
  String.length (normalize s) = 12%nat ->
  validateBarcode (String "0" s) = validateBarcode s.
Proof.
  intro H.
  rewrite (validateBarcode_12 s H).
  assert (H' : String.length (normalize (String "0" s)) = 13%nat).
  { unfold normalize in *. simpl. now rewrite H. }
  rewrite (validateBarcode_13 _ H').
  unfold normalize. simpl strip_non_digits.
  symmetry. apply validateUPC_as_EAN13_conv.
Qed.

Lemma validateBarcode_leading_zero_witness :
  validateBarcode (String "0" "0 36000 29145 2")
  = validateBarcode "0 36000 29145 2".
Proof.
  apply (validateBarcode_leading_zero "0 36000 29145 2"). reflexivity.
Defined.

(** * The star rating *)

Section Stars.

Lemma contains_app (l1 l2 : classList) (c : string) :
  contains (l1 ++ l2)%list c = contains l1 c || contains l2 c.
Proof. unfold contains. apply existsb_app. Qed.

Lemma contains_add (c d : string) (l : classList) :
  contains (classList_add c l) d = String.eqb d c || contains l d.
Proof.
  unfold classList_add. destruct (contains l c) eqn:E.
  - destruct (String.eqb_spec d c) as [->|]; [now rewrite E|reflexivity].
  - rewrite contains_app. simpl. rewrite orb_false_r. apply orb_comm.
Qed.

Lemma contains_remove (c d : string) (l : classList) :
  contains (classList_remove c l) d = negb (String.eqb d c) && contains l d.
Proof.
  unfold classList_remove, contains.
  induction l as [|x l IH]; simpl; [now rewrite andb_false_r|].
  destruct (String.eqb_spec x c) as [->|Hx]; simpl; rewrite IH.
  - destruct (String.eqb_spec d c) as [->|Hd]; simpl; [reflexivity|].
    destruct (String.eqb_spec d c); [contradiction|reflexivity].
  - destruct (String.eqb_spec d x) as [->|Hd]; simpl.
    + destruct (String.eqb_spec x c); [contradiction|reflexivity].
    + reflexivity.
Qed.

Lemma updateStar_classes (rating : JS.number) (index : nat) (star : classList) :
  contains (updateStar rating index star) "bi-star-fill"
  = JS.lt (of_int (Z.of_nat index)) rating /\
  contains (updateStar rating index star) "bi-star"
  = negb (JS.lt (of_int (Z.of_nat index)) rating) /\
  forall c, c <> "bi-star" -> c <> "bi-star-fill" ->
            contains (updateStar rating index star) c = contains star c.
Proof.
  unfold updateStar.
  destruct (JS.lt (of_int (Z.of_nat index)) rating);
    rewrite !contains_add, !contains_remove; simpl;
    (split; [reflexivity|split; [reflexivity|]]);
    intros c H1 H2; rewrite contains_add, contains_remove;
    apply String.eqb_neq in H1, H2; now rewrite H1, H2.
Qed.

Lemma forEach_from_nth (f : nat -> classList -> classList)
    (stars : list classList) :
  forall start i,
    nth_error (forEach_from start f stars) i
    = option_map (f (start + i)%nat) (nth_error stars i).
Proof.
  induction stars as [|x l IH]; intros start [|i]; simpl; try reflexivity.
  - now rewrite Nat.add_0_r.
  - rewrite IH. now rewrite Nat.add_succ_r.
Qed.

Lemma forEach_from_length (f : nat -> classList -> classList)
    (stars : list classList) :
  forall start, List.length (forEach_from start f stars) = List.length stars.
Proof.
  induction stars as [|x l IH]; intro start; simpl; [reflexivity|].
  now rewrite IH.
Qed.

End Stars.

(** X20: after [updateStarDisplay(rating)] there are as many stars as
    before and every star is either filled or empty, never both and never
    neither, whatever classes it had before: star number i has
    [bi-star-fill] exactly when i < rating and [bi-star] exactly otherwise,
    and its other classes are untouched. *)
Theorem updateStarDisplay_classes (rating : JS.number) (stars : list classList) :
  List.length (updateStarDisplay rating stars) = List.length stars /\
  forall i star,
    nth_error stars i = Some star ->
    exists star',
      nth_error (updateStarDisplay rating stars) i = Some star' /\
      contains star' "bi-star-fill" = JS.lt (of_int (Z.of_nat i)) rating /\
      contains star' "bi-star" = negb (JS.lt (of_int (Z.of_nat i)) rating) /\
      (forall c, c <> "bi-star" -> c <> "bi-star-fill" ->
                 contains star' c = contains star c).
Proof.
  split; [apply forEach_from_length|].
  intros i star H. exists (updateStar rating i star).
  split; [|apply updateStar_classes].
  unfold updateStarDisplay. rewrite forEach_from_nth, H. reflexivity.
Qed.

Lemma updateStarDisplay_classes_witness :
  exists star',
    nth_error
      (updateStarDisplay (of_int 2)
         [["bi"; "bi-star"]; ["bi"; "bi-star"; "bi-star-fill"]; ["bi"]])
      2%nat
    = Some star' /\
    contains star' "bi-star-fill"
    = JS.lt (of_int (Z.of_nat 2%nat)) (of_int 2) /\
    contains star' "bi-star"
    = negb (JS.lt (of_int (Z.of_nat 2%nat)) (of_int 2)) /\
    (forall c, c <> "bi-star" -> c <> "bi-star-fill" ->
               contains star' c = contains ["bi"] c).
Proof.
  apply (proj2 (updateStarDisplay_classes (of_int 2)
           [["bi"; "bi-star"]; ["bi"; "bi-star"; "bi-star-fill"]; ["bi"]])
           2%nat ["bi"]).
  reflexivity.
Defined.

(** X21: what the two checksum functions accept, [validateBarcode] accepts
    too: a string accepted by [validateEAN13] or by [validateUPC] is
    accepted by [validateBarcode]. *)
Theorem validators_agree (s : string) :
  validateEAN13 s = true \/ validateUPC s = true ->
  validateBarcode s = true.
Proof.
  intros [H|H].
  - pose proof H as H'. apply validateEAN13_iff in H'.
    destruct H' as [Hlen [Hd _]].
    assert (E : normalize s = s) by (apply strip_all_digits; exact Hd).
    rewrite validateBarcode_13 by (rewrite E; exact Hlen).
    now rewrite E.
  - pose proof H as H'. apply validateUPC_iff in H'.
    destruct H' as [Hlen [Hd _]].
    assert (E : normalize s = s) by (apply strip_all_digits; exact Hd).
    rewrite validateBarcode_12 by (rewrite E; exact Hlen).
    now rewrite E.
Qed.

Lemma validators_agree_witness :
  validateBarcode "036000291452" = true.
Proof.
  apply (validators_agree "036000291452"). right. reflexivity.
Defined.
